(** * RAG-API: the two request handlers of [app.py]

    [app.py] registers two routes on a FastAPI application:
    [POST /query] (function [query]) and [POST /add] (function
    [add_knowledge]).  Each handler sequences calls into collaborators it
    does not implement: the Chroma collection ([collection.query],
    [collection.add]), the Ollama client ([ollama_client.generate]), the
    identifier generator ([uuid.uuid4]) and standard output ([print]).

    The handlers are embedded as computations in a state-and-exception
    monad [Py].  The collaborators are an interface ([Collaborators]); every
    theorem about a handler quantifies over all of its implementations.  A
    small in-memory implementation ([Mem]) is used to run the handlers on
    concrete inputs. *)

From Stdlib Require Import String Ascii List Bool Arith Lia.
From ExtLib Require Import Structures.Monad Structures.MonadExc.
Import ListNotations.
Import MonadNotation.

Local Open Scope list_scope.
Local Open Scope string_scope.
Local Open Scope monad_scope.

(** ** Python values *)

(** An exception object: its class name and [str(e)]. *)
Record PyException : Type := mkExc
  { exc_type : string;
    exc_str  : string }.

(** [[][0]] *)
Definition IndexError : PyException :=
  mkExc "IndexError" "list index out of range".

(** [None[0]] *)
Definition TypeError : PyException :=
  mkExc "TypeError" "'NoneType' object is not subscriptable".

(** How a call ends: it returns a value, raises an instance of [Exception]
    ([Raised]), or raises an object that is not one ([RaisedBase]:
    [KeyboardInterrupt], [SystemExit], a panic of a native extension), which
    [except Exception] does not catch. *)
Inductive outcome (A : Type) : Type :=
| Returned (a : A)
| Raised (e : PyException)
| RaisedBase (b : PyException).

Arguments Returned {A} a.
Arguments Raised {A} e.
Arguments RaisedBase {A} b.

(** The exception a call ended in, of either kind. *)
Definition fault_of {A} (o : outcome A) : option PyException :=
  match o with
  | Returned _ => None
  | Raised e => Some e
  | RaisedBase b => Some b
  end.

(** Evaluation of an expression that may raise. *)
#[global] Instance Monad_outcome : Monad outcome :=
  {| ret := @Returned;
     bind := fun A B (c : outcome A) (k : A -> outcome B) =>
               match c with
               | Returned a => k a
               | Raised e => Raised e
               | RaisedBase b => RaisedBase b
               end |}.

#[global] Instance MonadExc_outcome : MonadExc PyException outcome :=
  {| raise := @Raised;
     catch := fun A (c : outcome A) (h : PyException -> outcome A) =>
                match c with
                | Returned a => Returned a
                | Raised e => h e
                | RaisedBase b => RaisedBase b
                end |}.

(** A JSON object with string values, as the handlers return it: the keys in
    the order of the dict literal. *)
Definition dict : Type := list (string * string).

Fixpoint dict_get (k : string) (d : dict) : option string :=
  match d with
  | [] => None
  | (k', v) :: d' => if String.eqb k k' then Some v else dict_get k d'
  end.

(** The value of [collection.query(...)]: one list of identifiers and one
    list of document texts per query text.  [documents] is optional in
    Chroma's result type. *)
Record QueryResult : Type := mkQueryResult
  { ids       : list (list string);
    documents : option (list (list string)) }.

(** The value of [ollama_client.generate(...)]; the handler reads
    [answer["response"]]. *)
Record GenerateResponse : Type := mkGenerateResponse
  { response : string }.

(** ** [str] of the retrieval result

    [print(f"... {results}")] formats the result dict with Python's [repr]:
    strings in quotes with their escapes, lists in brackets, [None] as is.
    Strings are sequences of bytes here; bytes above 127, which make up
    printable non-ASCII characters, are kept as they are. *)

Definition quote1 : ascii := "'"%char.
Definition quote2 : ascii := "034"%char.
Definition backslash : ascii := "\"%char.

Fixpoint has_char (c : ascii) (s : string) : bool :=
  match s with
  | EmptyString => false
  | String c' s' => Ascii.eqb c c' || has_char c s'
  end.

Definition hex_digit (n : nat) : ascii :=
  nth n ["0"; "1"; "2"; "3"; "4"; "5"; "6"; "7"; "8"; "9";
         "a"; "b"; "c"; "d"; "e"; "f"]%char "0"%char.

(** One character inside a string literal delimited by [quote]. *)
Definition repr_char (quote c : ascii) : string :=
  let n := nat_of_ascii c in
  if Ascii.eqb c backslash then String backslash (String backslash EmptyString)
  else if Ascii.eqb c quote then String backslash (String quote EmptyString)
  else if Nat.eqb n 9 then String backslash "t"
  else if Nat.eqb n 10 then String backslash "n"
  else if Nat.eqb n 13 then String backslash "r"
  else if Nat.ltb n 32 || Nat.eqb n 127
       then String backslash
              (String "x" (String (hex_digit (n / 16))
                                  (String (hex_digit (n mod 16)) EmptyString)))
  else String c EmptyString.

Fixpoint repr_chars (quote : ascii) (s : string) : string :=
  match s with
  | EmptyString => EmptyString
  | String c s' => repr_char quote c ++ repr_chars quote s'
  end.

(** [repr(s)] of a string: single quotes, unless it holds a single quote
    and no double quote. *)
Definition repr_str (s : string) : string :=
  let quote := if has_char quote1 s && negb (has_char quote2 s)
               then quote2 else quote1 in
  String quote (repr_chars quote s ++ String quote EmptyString).

(** [repr(l)] of a list, given the [repr] of its items. *)
Definition repr_list {A} (repr_item : A -> string) (l : list A) : string :=
  "[" ++ String.concat ", " (map repr_item l) ++ "]".

(** [str(results)] for the keys modelled. *)
Definition str_results (r : QueryResult) : string :=
  "{'ids': " ++ repr_list (repr_list repr_str) (ids r)
  ++ ", 'documents': "
  ++ match documents r with
     | Some rows => repr_list (repr_list repr_str) rows
     | None => "None"
     end
  ++ "}".

(** ** Observable effects *)

(** One entry per effect of a handler, in the order they happen. *)
Inductive Event : Type :=
| Print (line : string)
| CollectionQuery (query_texts : list string) (n_results : nat)
| CollectionAdd (docs : list string) (doc_ids : list string)
| OllamaGenerate (model : string) (prompt : string)
| Uuid4.

Definition is_generate (e : Event) : bool :=
  match e with OllamaGenerate _ _ => true | _ => false end.

Definition is_add (e : Event) : bool :=
  match e with CollectionAdd _ _ => true | _ => false end.

(** The calls to [ollama_client.generate] recorded in a trace. *)
Definition generate_calls (t : list Event) : list Event := filter is_generate t.

(** The calls to [collection.add] recorded in a trace. *)
Definition add_calls (t : list Event) : list Event := filter is_add t.


(** ** Expressions of [query] *)

(** [l[i]] on a list *)
Definition list_getitem {A} (l : list A) (i : nat) : outcome A :=
  match nth_error l i with
  | Some x => ret x
  | None => raise IndexError
  end.

(** [d[i]] on [results["documents"]], which may be [None] *)
Definition documents_getitem (d : option (list (list string))) (i : nat)
  : outcome (list string) :=
  match d with
  | Some rows => list_getitem rows i
  | None => raise TypeError
  end.

(** Truth value of [results["documents"]]: [None] and [[]] are false. *)
Definition truthy (d : option (list (list string))) : bool :=
  match d with
  | Some (_ :: _) => true
  | _ => false
  end.

(** [results["documents"][0][0] if results["documents"] else ""] *)
Definition context_of (results : QueryResult) : outcome string :=
  if truthy (documents results)
  then row <- documents_getitem (documents results) 0 ;;
       list_getitem row 0
  else ret "".

(** ** The world the handlers run in *)

Section World.

(** The private state of each collaborator: the documents held by the
    Chroma collection, the state of the identifier generator, the state of
    the model server. *)
Context {Store IdGen Llm : Type}.

Record World : Type := mkWorld
  { store : Store;
    idgen : IdGen;
    llm   : Llm;
    trace : list Event }.

(** The collaborators, as the handlers call them.  [collection.query] is
    the collection's lookup and reads the store; [collection.add] may
    change it; every call may raise. *)
Record Collaborators : Type := mkCollaborators
  { collection_query : list string -> nat -> Store -> outcome QueryResult;
    collection_add   : list string -> list string -> Store -> outcome unit * Store;
    ollama_generate  : string -> string -> Llm -> outcome GenerateResponse * Llm;
    uuid4_str        : IdGen -> outcome string * IdGen;
    format_results   : QueryResult -> string }.

(** *** The monad: state that survives an exception *)

Definition Py (A : Type) : Type := World -> outcome A * World.

Definition Py_ret {A} (a : A) : Py A := fun w => (Returned a, w).

Definition Py_bind {A B} (c : Py A) (k : A -> Py B) : Py B :=
  fun w =>
    match c w with
    | (Returned a, w') => k a w'
    | (Raised e, w') => (Raised e, w')
    | (RaisedBase b, w') => (RaisedBase b, w')
    end.

(** [raise e] *)
Definition Py_raise {A} (e : PyException) : Py A := fun w => (Raised e, w).

(** [try: c  except Exception as e: h e]: the handler runs for an instance
    of [Exception] only; any other raised object passes through. *)
Definition Py_catch {A} (c : Py A) (h : PyException -> Py A) : Py A :=
  fun w =>
    match c w with
    | (Returned a, w') => (Returned a, w')
    | (Raised e, w') => h e w'
    | (RaisedBase b, w') => (RaisedBase b, w')
    end.

#[global] Instance Monad_Py : Monad Py :=
  {| ret := @Py_ret; bind := @Py_bind |}.

#[global] Instance MonadExc_Py : MonadExc PyException Py :=
  {| raise := @Py_raise; catch := @Py_catch |}.

Definition log (e : Event) (w : World) : World :=
  mkWorld (store w) (idgen w) (llm w) (trace w ++ [e])%list.

(** *** Primitive effects *)

Variable env : Collaborators.

(** [print(line)] *)
Definition print (line : string) : Py unit :=
  fun w => (Returned tt, log (Print line) w).

(** [collection.query(query_texts=qs, n_results=n)] *)
Definition call_collection_query (qs : list string) (n : nat) : Py QueryResult :=
  fun w => (collection_query env qs n (store w), log (CollectionQuery qs n) w).

(** [collection.add(documents=ds, ids=dids)] *)
Definition call_collection_add (ds dids : list string) : Py unit :=
  fun w =>
    let (r, s') := collection_add env ds dids (store w) in
    (r, mkWorld s' (idgen w) (llm w) (trace w ++ [CollectionAdd ds dids])%list).

(** [ollama_client.generate(model=m, prompt=p)] *)
Definition call_ollama_generate (m p : string) : Py GenerateResponse :=
  fun w =>
    let (r, l') := ollama_generate env m p (llm w) in
    (r, mkWorld (store w) (idgen w) l' (trace w ++ [OllamaGenerate m p])%list).

(** [import uuid; str(uuid.uuid4())] *)
Definition call_uuid4 : Py string :=
  fun w =>
    let (r, g') := uuid4_str env (idgen w) in
    (r, mkWorld (store w) g' (llm w) (trace w ++ [Uuid4])%list).

(** An expression evaluated inside a handler: no effect on the world. *)
Definition eval {A} (o : outcome A) : Py A := fun w => (o, w).

Definition nl : string := String "010"%char EmptyString.

Definition model_id : string := "tinyllama".

(** The f-string passed as [prompt]. *)
Definition prompt_of (context q : string) : string :=
  "Context:" ++ nl ++ context ++ nl ++ nl ++ "Question: " ++ q ++ nl ++ nl
  ++ "Answer clearly and concisely:using only the context in the context".

(** *** The handlers *)

(** [def query(q: str)] *)
Definition query (q : string) : Py dict :=
  print ("Received query: " ++ q) ;;
  results <- call_collection_query [q] 1 ;;
  print ("ChromaDB query results: " ++ format_results env results) ;;
  context <- eval (context_of results) ;;
  print ("Context passed to Ollama: " ++ context) ;;
  answer <- call_ollama_generate model_id (prompt_of context q) ;;
  ret [("answer", response answer)].

(** [def add_knowledge(text: str)] *)
Definition add_knowledge (text : string) : Py dict :=
  catch
    (doc_id <- call_uuid4 ;;
     call_collection_add [text] [doc_id] ;;
     ret [("status", "success");
          ("message", "Content added to knowledge base");
          ("id", doc_id)])
    (fun e => ret [("status", "error");
                   ("message", exc_str e)]).

End World.

Arguments World : clear implicits.
Arguments Collaborators : clear implicits.
Arguments Py : clear implicits.

(** ** The routes *)



Section Routes.

Context {Store IdGen Llm : Type}.
Variable env : Collaborators Store IdGen Llm.




End Routes.

(** ** An in-memory implementation of the collaborators

    Used to run the handlers on concrete inputs.  The store keeps (id, text)
    rows in insertion order and ranks them by a character-overlap distance;
    like Chroma it answers a query with one list per query text, which is
    empty when nothing is stored. *)
Module Mem.

Record Store : Type := mkStore
  { online : bool;                       (* false: every call raises *)
    rows   : list (string * string) }.  (* (id, text), oldest first *)

(** The identifiers the generator will draw, in order. *)
Definition IdGen : Type := list string.

(** [None]: the model server is unreachable; [Some a]: it completes every
    prompt with [a]. *)
Definition Llm : Type := option string.

Fixpoint chars (s : string) : list ascii :=
  match s with
  | EmptyString => []
  | String c s' => c :: chars s'
  end.

Definition occurs (c : ascii) (s : string) : bool :=
  existsb (Ascii.eqb c) (chars s).

(** How many characters of [q] do not occur in [d]. *)
Definition distance (q d : string) : nat :=
  List.length (filter (fun c => negb (occurs c d)) (chars q)).

Fixpoint insert_by (q : string) (r : string * string)
         (l : list (string * string)) : list (string * string) :=
  match l with
  | [] => [r]
  | r' :: l' =>
      if Nat.ltb (distance q (snd r)) (distance q (snd r'))
      then r :: r' :: l'
      else r' :: insert_by q r l'
  end.

(** The rows, nearest to [q] first; ties keep insertion order. *)
Definition ranked (q : string) (l : list (string * string))
  : list (string * string) :=
  fold_right (insert_by q) [] l.

Definition unavailable : PyException :=
  mkExc "ConnectionError" "collaborator unavailable".

Definition no_entropy : PyException :=
  mkExc "OSError" "no identifier available".

Definition query_top_k (qs : list string) (n : nat) (s : Store) : outcome QueryResult :=
  if online s
  then let top := map (fun q => firstn n (ranked q (rows s))) qs in
       Returned (mkQueryResult (map (map fst) top) (Some (map (map snd) top)))
  else Raised unavailable.

Definition insert (ds dids : list string) (s : Store) : outcome unit * Store :=
  if online s
  then (Returned tt, mkStore true (rows s ++ combine dids ds)%list)
  else (Raised unavailable, s).

Definition generate (m p : string) (l : Llm) : outcome GenerateResponse * Llm :=
  match l with
  | Some a => (Returned (mkGenerateResponse a), l)
  | None => (Raised unavailable, l)
  end.

Definition uuid4 (g : IdGen) : outcome string * IdGen :=
  match g with
  | i :: g' => (Returned i, g')
  | [] => (Raised no_entropy, [])
  end.

Definition format (r : QueryResult) : string := str_results r.

Definition env : Collaborators Store IdGen Llm :=
  mkCollaborators query_top_k insert generate uuid4 format.

Definition world (s : Store) (g : IdGen) (l : Llm) : World Store IdGen Llm :=
  mkWorld s g l [].

End Mem.


(** ** Concrete worlds *)

Module Examples.

Definition sky_text : string := "The sky is blue.".
Definition sky_question : string := "What color is the sky?".

(** Nothing stored yet. *)
Definition empty_world : World Mem.Store Mem.IdGen Mem.Llm :=
  Mem.world (Mem.mkStore true []) ["id-1"; "id-2"] (Some "Blue.").

(** One unrelated document stored. *)
Definition grass_world : World Mem.Store Mem.IdGen Mem.Llm :=
  Mem.world (Mem.mkStore true [("id-0", "Grass is green.")])
            ["id-1"; "id-2"] (Some "Blue.").

(** The sky document stored next to the unrelated one. *)
Definition sky_world : World Mem.Store Mem.IdGen Mem.Llm :=
  Mem.world (Mem.mkStore true [("id-0", "Grass is green."); ("id-1", sky_text)])
            ["id-2"] (Some "Blue.").

(** The vector store cannot be reached. *)
Definition offline_world : World Mem.Store Mem.IdGen Mem.Llm :=
  Mem.world (Mem.mkStore false [("id-0", "Grass is green.")])
            ["id-1"; "id-2"] (Some "Blue.").



(** The identifier generator draws the same value twice. *)
Definition repeating_world : World Mem.Store Mem.IdGen Mem.Llm :=
  Mem.world (Mem.mkStore true []) ["id-1"; "id-1"] (Some "Blue.").

End Examples.

(** ** Collaborators with a scripted retrieval result

    The store is the result every similarity search returns; inserts are
    accepted and leave it as it is.  Used to run [query] on results the
    in-memory store never produces ([documents] absent or empty). *)
Module Canned.

Definition Store : Type := QueryResult.

Definition env : Collaborators Store Mem.IdGen Mem.Llm :=
  mkCollaborators (fun _ _ s => Returned s)
                  (fun _ _ s => (Returned tt, s))
                  Mem.generate Mem.uuid4 Mem.format.



End Canned.

(** ** Collaborators whose insertion is interrupted

    [collection.add] ends in [KeyboardInterrupt], which is not an instance
    of [Exception]; the rest is the scripted store. *)
Module Interrupted.

Definition keyboard_interrupt : PyException := mkExc "KeyboardInterrupt" "".

Definition env : Collaborators Canned.Store Mem.IdGen Mem.Llm :=
  mkCollaborators (fun _ _ s => Returned s)
                  (fun _ _ s => (RaisedBase keyboard_interrupt, s))
                  Mem.generate Mem.uuid4 Mem.format.

Definition world : World Canned.Store Mem.IdGen Mem.Llm :=
  mkWorld (mkQueryResult [[]] (Some [[]])) ["id-1"] (Some "Blue.") [].

End Interrupted.

(** ** Vocabulary of the properties *)

Section Effects.

Context {Store IdGen Llm : Type}.
Variable env : Collaborators Store IdGen Llm.

(** The effects of one run of [query], read off the collaborators'
    answers: the three diagnostic lines and the two collaborator calls, cut
    short where an exception ends the run. *)
Definition query_effects (q : string) (w : World Store IdGen Llm) : list Event :=
  Print ("Received query: " ++ q)
  :: CollectionQuery [q] 1
  :: match collection_query env [q] 1 (store w) with
     | Raised _ | RaisedBase _ => []
     | Returned r =>
         Print ("ChromaDB query results: " ++ format_results env r)
         :: match context_of r with
            | Raised _ | RaisedBase _ => []
            | Returned c =>
                [Print ("Context passed to Ollama: " ++ c);
                 OllamaGenerate model_id (prompt_of c q)]
            end
     end.

(** Two consecutive calls of [add_knowledge] that both report success
    return different identifiers. *)
Definition consecutive_ids_distinct (t1 t2 : string) (w : World Store IdGen Llm)
  : Prop :=
  forall b1 w1 b2 w2 i1 i2,
    add_knowledge env t1 w = (Returned b1, w1) ->
    add_knowledge env t2 w1 = (Returned b2, w2) ->
    dict_get "status" b1 = Some "success" ->
    dict_get "status" b2 = Some "success" ->
    dict_get "id" b1 = Some i1 ->
    dict_get "id" b2 = Some i2 ->
    i1 <> i2.

(** The identifiers passed to [collection.add] so far. *)
Definition used_ids (t : list Event) : list string :=
  flat_map (fun ev => match ev with
                      | CollectionAdd _ dids => dids
                      | _ => []
                      end) t.

(** A successful call of [add_knowledge] returns an identifier that no
    earlier insertion used. *)
Definition returned_id_is_fresh (text : string) (w : World Store IdGen Llm)
  : Prop :=
  forall body w' i,
    add_knowledge env text w = (Returned body, w') ->
    dict_get "status" body = Some "success" ->
    dict_get "id" body = Some i ->
    ~ In i (used_ids (trace w)).

(** A step of [add_knowledge] (the identifier generation, or the insertion
    that follows it) ended in the exception [e], of either kind. *)
Definition add_step_fault (text : string) (w : World Store IdGen Llm)
           (e : PyException) : Prop :=
  fault_of (fst (uuid4_str env (idgen w))) = Some e
  \/ exists i g',
      uuid4_str env (idgen w) = (Returned i, g')
      /\ fault_of (fst (collection_add env [text] [i] (store w))) = Some e.

(** A step of [add_knowledge] raised [b], which is not an instance of
    [Exception]. *)
Definition add_step_base_fault (text : string) (w : World Store IdGen Llm)
           (b : PyException) : Prop :=
  fst (uuid4_str env (idgen w)) = RaisedBase b
  \/ exists i g',
      uuid4_str env (idgen w) = (Returned i, g')
      /\ fst (collection_add env [text] [i] (store w)) = RaisedBase b.

(** Every fault of a step of [add_knowledge] comes back as the error
    envelope. *)
Definition every_fault_is_reported (text : string) (w : World Store IdGen Llm)
  : Prop :=
  forall e,
    add_step_fault text w e ->
    fst (add_knowledge env text w)
    = Returned [("status", "error"); ("message", exc_str e)].

End Effects.

(** ** Facts about the expressions *)

Lemma context_of_first (r : QueryResult) (d : string) (ds : list string)
      (rest : list (list string)) :
  documents r = Some ((d :: ds) :: rest) -> context_of r = Returned d.
Proof.
  intros Hdocs. unfold context_of. rewrite Hdocs. reflexivity.
Qed.

Lemma context_of_falsy (r : QueryResult) :
  truthy (documents r) = false -> context_of r = Returned "".
Proof.
  intros Hf. unfold context_of. rewrite Hf. reflexivity.
Qed.

Lemma context_of_empty_row (r : QueryResult) (rest : list (list string)) :
  documents r = Some ([] :: rest) -> context_of r = Raised IndexError.
Proof.
  intros Hdocs. unfold context_of. rewrite Hdocs. reflexivity.
Qed.

(** The context is the first text of the first row, the empty string when
    [documents] is false, and an exception otherwise. *)
Lemma context_of_cases (r : QueryResult) :
  (exists d ds rest, documents r = Some ((d :: ds) :: rest)
                     /\ context_of r = Returned d)
  \/ (truthy (documents r) = false /\ context_of r = Returned "")
  \/ (exists rest, documents r = Some ([] :: rest)
                   /\ context_of r = Raised IndexError).
Proof.
  destruct (documents r) as [[|[|d ds] rest]|] eqn:Hdocs.
  - right; left. split; [reflexivity | apply context_of_falsy; now rewrite Hdocs].
  - right; right. exists rest. split; [reflexivity | now apply context_of_empty_row with rest].
  - left. exists d, ds, rest. split; [reflexivity | now apply context_of_first with ds rest].
  - right; left. split; [reflexivity | apply context_of_falsy; now rewrite Hdocs].
Qed.


Lemma string_app_assoc (a b c : string) : (a ++ b) ++ c = a ++ (b ++ c).
Proof.
  induction a as [|x a IH]; simpl; [reflexivity | now rewrite IH].
Qed.


(** ** Facts about the handlers *)

Ltac run_py :=
  repeat (progress
    (cbn [bind ret raise catch Monad_Py MonadExc_Py];
     unfold print, call_collection_query, call_collection_add,
            call_ollama_generate, call_uuid4, eval, log,
            Py_bind, Py_ret, Py_raise, Py_catch;
     cbn [store idgen llm trace fst snd])).

Lemma context_of_not_base (r : QueryResult) (b : PyException) :
  context_of r <> RaisedBase b.
Proof.
  destruct (context_of_cases r)
    as [(d & ds & rest & _ & Hc) | [(_ & Hc) | (rest & _ & Hc)]];
    rewrite Hc; discriminate.
Qed.

Section Handlers.

Context {Store IdGen Llm : Type}.
Variable env : Collaborators Store IdGen Llm.

Let W : Type := World Store IdGen Llm.

(** [query] when the vector store raises. *)
Lemma query_store_raises (q : string) (w : W) (e : PyException) :
  collection_query env [q] 1 (store w) = Raised e ->
  query env q w =
    (Raised e,
     mkWorld (store w) (idgen w) (llm w)
             (trace w ++ [Print ("Received query: " ++ q);
                          CollectionQuery [q] 1])%list).
Proof.
  intros Hq. unfold query. run_py. rewrite Hq.
  rewrite <- app_assoc. reflexivity.
Qed.

Lemma query_store_raises_base (q : string) (w : W) (b : PyException) :
  collection_query env [q] 1 (store w) = RaisedBase b ->
  query env q w =
    (RaisedBase b,
     mkWorld (store w) (idgen w) (llm w)
             (trace w ++ [Print ("Received query: " ++ q);
                          CollectionQuery [q] 1])%list).
Proof.
  intros Hq. unfold query. run_py. rewrite Hq.
  rewrite <- app_assoc. reflexivity.
Qed.

(** [query] when indexing the result raises. *)
Lemma query_context_raises (q : string) (w : W) (r : QueryResult)
      (e : PyException) :
  collection_query env [q] 1 (store w) = Returned r ->
  context_of r = Raised e ->
  query env q w =
    (Raised e,
     mkWorld (store w) (idgen w) (llm w)
             (trace w ++ [Print ("Received query: " ++ q);
                          CollectionQuery [q] 1;
                          Print ("ChromaDB query results: "
                                 ++ format_results env r)])%list).
Proof.
  intros Hq Hc. unfold query. run_py. rewrite Hq, Hc.
  repeat rewrite <- app_assoc. reflexivity.
Qed.

(** [query] when a context is obtained: the generation call is made, and
    its outcome decides the handler's. *)
Lemma query_context_returned (q : string) (w : W) (r : QueryResult)
      (c : string) :
  collection_query env [q] 1 (store w) = Returned r ->
  context_of r = Returned c ->
  query env q w =
    (match fst (ollama_generate env model_id (prompt_of c q) (llm w)) with
     | Returned a => Returned [("answer", response a)]
     | Raised e => Raised e
     | RaisedBase b => RaisedBase b
     end,
     mkWorld (store w) (idgen w)
             (snd (ollama_generate env model_id (prompt_of c q) (llm w)))
             (trace w ++ [Print ("Received query: " ++ q);
                          CollectionQuery [q] 1;
                          Print ("ChromaDB query results: "
                                 ++ format_results env r);
                          Print ("Context passed to Ollama: " ++ c);
                          OllamaGenerate model_id (prompt_of c q)])%list).
Proof.
  intros Hq Hc. unfold query. run_py. rewrite Hq, Hc. run_py.
  destruct (ollama_generate env model_id (prompt_of c q) (llm w)) as [[a|e|b] l'];
    run_py; repeat rewrite <- app_assoc; reflexivity.
Qed.

(** The trace of [query] grows by [query_effects]; the store and the
    identifier generator are left as they were. *)
Lemma query_frame (q : string) (w : W) :
  trace (snd (query env q w)) = (trace w ++ query_effects env q w)%list
  /\ store (snd (query env q w)) = store w
  /\ idgen (snd (query env q w)) = idgen w.
Proof.
  unfold query_effects.
  destruct (collection_query env [q] 1 (store w)) as [r|e|b] eqn:Hq.
  - destruct (context_of r) as [c|e|b] eqn:Hc.
    + rewrite (query_context_returned q w r c Hq Hc). cbn [snd trace store idgen].
      repeat split.
    + rewrite (query_context_raises q w r e Hq Hc). cbn [snd trace store idgen].
      repeat split.
    + destruct (context_of_not_base r b Hc).
  - rewrite (query_store_raises q w e Hq). cbn [snd trace store idgen].
    repeat split.
  - rewrite (query_store_raises_base q w b Hq). cbn [snd trace store idgen].
    repeat split.
Qed.

Lemma generate_calls_app (t1 t2 : list Event) :
  generate_calls (t1 ++ t2) = (generate_calls t1 ++ generate_calls t2)%list.
Proof. apply filter_app. Qed.

Lemma add_calls_app (t1 t2 : list Event) :
  add_calls (t1 ++ t2) = (add_calls t1 ++ add_calls t2)%list.
Proof. apply filter_app. Qed.

Lemma used_ids_app (t1 t2 : list Event) :
  used_ids (t1 ++ t2) = (used_ids t1 ++ used_ids t2)%list.
Proof. apply flat_map_app. Qed.

(** When [documents] is false the context is empty and the generation
    call is made on the prompt built from it. *)
Lemma query_falsy_documents (q : string) (w : W) (r : QueryResult) :
  collection_query env [q] 1 (store w) = Returned r ->
  truthy (documents r) = false ->
  generate_calls (trace (snd (query env q w)))
  = (generate_calls (trace w) ++ [OllamaGenerate model_id (prompt_of "" q)])%list.
Proof.
  intros Hq Hf.
  rewrite (query_context_returned q w r "" Hq (context_of_falsy r Hf)).
  cbn [snd trace]. rewrite generate_calls_app. reflexivity.
Qed.

(** An answer is never returned without the generation call. *)
Lemma query_returned_generated (q : string) (w : W) (body : dict) :
  fst (query env q w) = Returned body ->
  exists c,
    generate_calls (trace (snd (query env q w)))
    = (generate_calls (trace w) ++ [OllamaGenerate model_id (prompt_of c q)])%list.
Proof.
  intros Hret.
  destruct (collection_query env [q] 1 (store w)) as [r|e|b] eqn:Hq.
  - destruct (context_of r) as [c|e|b] eqn:Hc.
    + exists c. rewrite (query_context_returned q w r c Hq Hc).
      cbn [snd trace]. rewrite generate_calls_app. reflexivity.
    + rewrite (query_context_raises q w r e Hq Hc) in Hret. discriminate.
    + destruct (context_of_not_base r b Hc).
  - rewrite (query_store_raises q w e Hq) in Hret. discriminate.
  - rewrite (query_store_raises_base q w b Hq) in Hret. discriminate.
Qed.

(** *** [add_knowledge], case by case *)

Lemma add_knowledge_uuid_raises (text : string) (w : W) (e : PyException)
      (g' : IdGen) :
  uuid4_str env (idgen w) = (Raised e, g') ->
  add_knowledge env text w =
    (Returned [("status", "error"); ("message", exc_str e)],
     mkWorld (store w) g' (llm w) (trace w ++ [Uuid4])%list).
Proof.
  intros Hu. unfold add_knowledge. run_py. rewrite Hu. reflexivity.
Qed.

Lemma add_knowledge_uuid_raises_base (text : string) (w : W) (b : PyException)
      (g' : IdGen) :
  uuid4_str env (idgen w) = (RaisedBase b, g') ->
  add_knowledge env text w =
    (RaisedBase b,
     mkWorld (store w) g' (llm w) (trace w ++ [Uuid4])%list).
Proof.
  intros Hu. unfold add_knowledge. run_py. rewrite Hu. reflexivity.
Qed.

Lemma add_knowledge_add_raises (text : string) (w : W) (i : string)
      (g' : IdGen) (e : PyException) (s' : Store) :
  uuid4_str env (idgen w) = (Returned i, g') ->
  collection_add env [text] [i] (store w) = (Raised e, s') ->
  add_knowledge env text w =
    (Returned [("status", "error"); ("message", exc_str e)],
     mkWorld s' g' (llm w) (trace w ++ [Uuid4; CollectionAdd [text] [i]])%list).
Proof.
  intros Hu Ha. unfold add_knowledge. run_py. rewrite Hu. run_py.
  rewrite Ha. rewrite <- app_assoc. reflexivity.
Qed.

Lemma add_knowledge_add_raises_base (text : string) (w : W) (i : string)
      (g' : IdGen) (b : PyException) (s' : Store) :
  uuid4_str env (idgen w) = (Returned i, g') ->
  collection_add env [text] [i] (store w) = (RaisedBase b, s') ->
  add_knowledge env text w =
    (RaisedBase b,
     mkWorld s' g' (llm w) (trace w ++ [Uuid4; CollectionAdd [text] [i]])%list).
Proof.
  intros Hu Ha. unfold add_knowledge. run_py. rewrite Hu. run_py.
  rewrite Ha. rewrite <- app_assoc. reflexivity.
Qed.

Lemma add_knowledge_add_returns (text : string) (w : W) (i : string)
      (g' : IdGen) (s' : Store) :
  uuid4_str env (idgen w) = (Returned i, g') ->
  collection_add env [text] [i] (store w) = (Returned tt, s') ->
  add_knowledge env text w =
    (Returned [("status", "success");
               ("message", "Content added to knowledge base");
               ("id", i)],
     mkWorld s' g' (llm w) (trace w ++ [Uuid4; CollectionAdd [text] [i]])%list).
Proof.
  intros Hu Ha. unfold add_knowledge. run_py. rewrite Hu. run_py.
  rewrite Ha. rewrite <- app_assoc. reflexivity.
Qed.

(** The five ways a run of [add_knowledge] can go. *)
Lemma add_knowledge_cases (text : string) (w : W) :
  (exists e g',
      uuid4_str env (idgen w) = (Raised e, g'))
  \/ (exists b g',
         uuid4_str env (idgen w) = (RaisedBase b, g'))
  \/ (exists i g' s',
         uuid4_str env (idgen w) = (Returned i, g')
         /\ collection_add env [text] [i] (store w) = (Returned tt, s'))
  \/ (exists i g' e s',
         uuid4_str env (idgen w) = (Returned i, g')
         /\ collection_add env [text] [i] (store w) = (Raised e, s'))
  \/ (exists i g' b s',
         uuid4_str env (idgen w) = (Returned i, g')
         /\ collection_add env [text] [i] (store w) = (RaisedBase b, s')).
Proof.
  destruct (uuid4_str env (idgen w)) as [[i|e|b] g'] eqn:Hu.
  - destruct (collection_add env [text] [i] (store w)) as [[[]|e|b] s'] eqn:Ha.
    + right; right; left. now exists i, g', s'.
    + right; right; right; left. now exists i, g', e, s'.
    + right; right; right; right. now exists i, g', b, s'.
  - left. now exists e, g'.
  - right; left. now exists b, g'.
Qed.

(** A run of [add_knowledge] that reports success drew its identifier
    from the generator and passed it, with the text, to [collection.add]. *)
Lemma add_knowledge_success_inv (text : string) (w w1 : W) (body : dict) :
  add_knowledge env text w = (Returned body, w1) ->
  dict_get "status" body = Some "success" ->
  exists i s',
    uuid4_str env (idgen w) = (Returned i, idgen w1)
    /\ collection_add env [text] [i] (store w) = (Returned tt, s')
    /\ body = [("status", "success");
               ("message", "Content added to knowledge base");
               ("id", i)]
    /\ w1 = mkWorld s' (idgen w1) (llm w)
                    (trace w ++ [Uuid4; CollectionAdd [text] [i]])%list.
Proof.
  intros Hrun Hst.
  destruct (add_knowledge_cases text w)
    as [(e & g' & Hu) | [(b & g' & Hu) | [(i & g' & s' & Hu & Ha)
       | [(i & g' & e & s' & Hu & Ha) | (i & g' & b & s' & Hu & Ha)]]]].
  - rewrite (add_knowledge_uuid_raises text w e g' Hu) in Hrun.
    inversion Hrun; subst. discriminate.
  - rewrite (add_knowledge_uuid_raises_base text w b g' Hu) in Hrun.
    discriminate.
  - rewrite (add_knowledge_add_returns text w i g' s' Hu Ha) in Hrun.
    inversion Hrun; subst. cbn [idgen]. exists i, s'. repeat split; assumption.
  - rewrite (add_knowledge_add_raises text w i g' e s' Hu Ha) in Hrun.
    inversion Hrun; subst. discriminate.
  - rewrite (add_knowledge_add_raises_base text w i g' b s' Hu Ha) in Hrun.
    discriminate.
Qed.

(** [add_knowledge] lets no instance of [Exception] out. *)
Lemma add_knowledge_never_raises (text : string) (w : W) (e : PyException) :
  fst (add_knowledge env text w) <> Raised e.
Proof.
  destruct (add_knowledge_cases text w)
    as [(e0 & g' & Hu) | [(b & g' & Hu) | [(i & g' & s' & Hu & Ha)
       | [(i & g' & e0 & s' & Hu & Ha) | (i & g' & b & s' & Hu & Ha)]]]].
  - rewrite (add_knowledge_uuid_raises text w e0 g' Hu). discriminate.
  - rewrite (add_knowledge_uuid_raises_base text w b g' Hu). discriminate.
  - rewrite (add_knowledge_add_returns text w i g' s' Hu Ha). discriminate.
  - rewrite (add_knowledge_add_raises text w i g' e0 s' Hu Ha). discriminate.
  - rewrite (add_knowledge_add_raises_base text w i g' b s' Hu Ha). discriminate.
Qed.

(** What leaves [add_knowledge] is what a step raised outside
    [Exception]. *)
Lemma add_knowledge_base_iff (text : string) (w : W) (b : PyException) :
  fst (add_knowledge env text w) = RaisedBase b
  <-> add_step_base_fault env text w b.
Proof.
  unfold add_step_base_fault.
  destruct (add_knowledge_cases text w)
    as [(e0 & g' & Hu) | [(b0 & g' & Hu) | [(i & g' & s' & Hu & Ha)
       | [(i & g' & e0 & s' & Hu & Ha) | (i & g' & b0 & s' & Hu & Ha)]]]].
  - rewrite (add_knowledge_uuid_raises text w e0 g' Hu), Hu. cbn [fst].
    split; [discriminate|].
    intros [H | (i & g'' & Hu' & _)]; discriminate.
  - rewrite (add_knowledge_uuid_raises_base text w b0 g' Hu), Hu. cbn [fst].
    split; [intros H; left; congruence|].
    intros [H | (i & g'' & Hu' & _)]; [congruence | discriminate].
  - rewrite (add_knowledge_add_returns text w i g' s' Hu Ha), Hu. cbn [fst].
    split; [discriminate|].
    intros [H | (i' & g'' & Hu' & Ha')]; [discriminate|].
    injection Hu' as <- <-. rewrite Ha in Ha'. discriminate.
  - rewrite (add_knowledge_add_raises text w i g' e0 s' Hu Ha), Hu. cbn [fst].
    split; [discriminate|].
    intros [H | (i' & g'' & Hu' & Ha')]; [discriminate|].
    injection Hu' as <- <-. rewrite Ha in Ha'. discriminate.
  - rewrite (add_knowledge_add_raises_base text w i g' b0 s' Hu Ha), Hu.
    cbn [fst]. split.
    + intros H. right. exists i, g'. split; [reflexivity|].
      rewrite Ha. cbn [fst]. congruence.
    + intros [H | (i' & g'' & Hu' & Ha')]; [discriminate|].
      injection Hu' as <- <-. rewrite Ha in Ha'. cbn [fst] in Ha'. congruence.
Qed.

End Handlers.

(** ** The application as a whole *)

Section Serving.

Context {Store IdGen Llm : Type}.
Variable env : Collaborators Store IdGen Llm.

Let W : Type := World Store IdGen Llm.



End Serving.

(** ** The in-memory store answers with what was added *)

Module MemFacts.

Import Mem.

Lemma ranked_snoc (q : string) (l : list (string * string))
      (x : string * string) :
  ranked q (l ++ [x]) = fold_right (insert_by q) [x] l.
Proof.
  unfold ranked. rewrite fold_right_app. reflexivity.
Qed.

(** Inserting rows that are no nearer than [x] keeps [x] in front. *)
Lemma nearest_stays_first (q : string) (x : string * string)
      (l : list (string * string)) :
  Forall (fun r => distance q (snd x) <= distance q (snd r)) l ->
  exists tl, fold_right (insert_by q) [x] l = x :: tl.
Proof.
  induction 1 as [|r l Hr _ [tl IH]]; cbn [fold_right].
  - now exists [].
  - rewrite IH. cbn [insert_by].
    destruct (Nat.ltb_spec (distance q (snd r)) (distance q (snd x))) as [Hlt|_].
    + lia.
    + now exists (insert_by q r tl).
Qed.

(** After [(i, text)] was added, a query to which no stored text is
    nearer than [text] gets [text] as its only document. *)
Lemma query_after_add (q i text : string) (s : Store) :
  online s = true ->
  Forall (fun r => distance q text <= distance q (snd r)) (rows s) ->
  exists s',
    insert [text] [i] s = (Returned tt, s')
    /\ query_top_k [q] 1 s' = Returned (mkQueryResult [[i]] (Some [[text]])).
Proof.
  intros Hon Hnear. unfold insert. rewrite Hon.
  eexists; split; [reflexivity|].
  unfold query_top_k. cbn [online rows map combine].
  rewrite ranked_snoc.
  destruct (nearest_stays_first q (i, text) (rows s) Hnear) as [tl ->].
  reflexivity.
Qed.

(** The round trip on the in-memory store: after [add_knowledge text], a
    [query] to which no stored text is nearer than [text] calls the
    generation collaborator on the prompt built from [text]. *)
Lemma add_then_query (q text i : string) (g : IdGen)
      (w : World Store IdGen Llm) :
  online (store w) = true ->
  idgen w = i :: g ->
  Forall (fun r => distance q text <= distance q (snd r)) (rows (store w)) ->
  generate_calls
    (trace (snd (query env q (snd (add_knowledge env text w)))))
  = (generate_calls (trace w)
     ++ [OllamaGenerate model_id (prompt_of text q)])%list.
Proof.
  intros Hon Hid Hnear.
  destruct (query_after_add q i text (store w) Hon Hnear) as (s' & Hadd & Hq).
  assert (Hu : uuid4_str env (idgen w) = (Returned i, g))
    by (rewrite Hid; reflexivity).
  rewrite (add_knowledge_add_returns env text w i g s' Hu Hadd).
  cbn [snd].
  rewrite (query_context_returned
             env q
             (mkWorld s' g (llm w) (trace w ++ [Uuid4; CollectionAdd [text] [i]])%list)
             (mkQueryResult [[i]] (Some [[text]])) text Hq eq_refl).
  cbn [snd trace].
  rewrite <- app_assoc, generate_calls_app. reflexivity.
Qed.

End MemFacts.

(** ** The properties of the handlers *)

Section Properties.

Context {Store IdGen Llm : Type}.
Variable env : Collaborators Store IdGen Llm.

Let W : Type := World Store IdGen Llm.


(** C3, as amended.  When the identifier generation or the insertion
    raises an instance of [Exception], [add_knowledge] returns the envelope
    with status ["error"] whose message is [str(e)]; [add_knowledge] lets no
    instance of [Exception] out; what leaves it is exactly what a step
    raised outside [Exception], which [except Exception] does not catch. *)
Theorem add_knowledge_fault_gives_error_envelope
        (text : string) (w : W) (e : PyException) :
  (exists g', uuid4_str env (idgen w) = (Raised e, g'))
  \/ (exists i g' s',
         uuid4_str env (idgen w) = (Returned i, g')
         /\ collection_add env [text] [i] (store w) = (Raised e, s')) ->
  fst (add_knowledge env text w)
  = Returned [("status", "error"); ("message", exc_str e)]
  /\ (forall text' (w' : W) e',
         fst (add_knowledge env text' w') <> Raised e')
  /\ (forall text' (w' : W) b,
         fst (add_knowledge env text' w') = RaisedBase b
         <-> add_step_base_fault env text' w' b).
Proof.
  intros Hfault. split; [|split].
  - destruct Hfault as [[g' Hu] | (i & g' & s' & Hu & Ha)].
    + now rewrite (add_knowledge_uuid_raises env text w e g' Hu).
    + now rewrite (add_knowledge_add_raises env text w i g' e s' Hu Ha).
  - intros text' w' e'. apply add_knowledge_never_raises.
  - intros text' w' b. apply add_knowledge_base_iff.
Qed.

(** C4, as amended.  When the insertion succeeds, [add_knowledge] has
    drawn one identifier from the generator, which it leaves advanced past
    that draw, has passed the text and that identifier to [collection.add],
    and returns the success envelope whose [id] is that identifier; the
    identifier is new among those inserted exactly when the draw is. *)
Theorem add_knowledge_success_envelope
        (text : string) (w : W) (i : string) (g' : IdGen) (s' : Store) :
  uuid4_str env (idgen w) = (Returned i, g') ->
  collection_add env [text] [i] (store w) = (Returned tt, s') ->
  fst (add_knowledge env text w)
  = Returned [("status", "success");
              ("message", "Content added to knowledge base");
              ("id", i)]
  /\ trace (snd (add_knowledge env text w))
     = (trace w ++ [Uuid4; CollectionAdd [text] [i]])%list
  /\ add_calls (trace (snd (add_knowledge env text w)))
     = (add_calls (trace w) ++ [CollectionAdd [text] [i]])%list
  /\ store (snd (add_knowledge env text w)) = s'
  /\ idgen (snd (add_knowledge env text w)) = g'
  /\ used_ids (trace (snd (add_knowledge env text w)))
     = (used_ids (trace w) ++ [i])%list
  /\ (returned_id_is_fresh env text w <-> ~ In i (used_ids (trace w))).
Proof.
  intros Hu Ha.
  pose proof (add_knowledge_add_returns env text w i g' s' Hu Ha) as Hrun.
  rewrite Hrun. cbn [fst snd trace store idgen].
  repeat split.
  - rewrite add_calls_app. reflexivity.
  - rewrite used_ids_app. reflexivity.
  - intros Hfresh. apply (Hfresh _ _ i Hrun); reflexivity.
  - intros Hnew body w' i' Hrun' _ Hid.
    rewrite Hrun in Hrun'. injection Hrun' as <- _.
    cbn in Hid. injection Hid as <-. exact Hnew.
Qed.

(** C5, as amended.  The identifiers returned by two consecutive
    successful calls of [add_knowledge] are the two values the identifier
    generator drew, one after the other; they differ exactly when those
    two draws differ. *)
Theorem consecutive_ids_are_the_draws
        (t1 t2 : string) (w w1 w2 : W) (b1 b2 : dict) :
  add_knowledge env t1 w = (Returned b1, w1) ->
  add_knowledge env t2 w1 = (Returned b2, w2) ->
  dict_get "status" b1 = Some "success" ->
  dict_get "status" b2 = Some "success" ->
  exists i1 i2 g1 g2,
    uuid4_str env (idgen w) = (Returned i1, g1)
    /\ uuid4_str env g1 = (Returned i2, g2)
    /\ dict_get "id" b1 = Some i1
    /\ dict_get "id" b2 = Some i2
    /\ (dict_get "id" b1 <> dict_get "id" b2 <-> i1 <> i2).
Proof.
  intros Hrun1 Hrun2 Hst1 Hst2.
  destruct (add_knowledge_success_inv env t1 w w1 b1 Hrun1 Hst1)
    as (i1 & s1 & Hu1 & _ & Hb1 & _).
  destruct (add_knowledge_success_inv env t2 w1 w2 b2 Hrun2 Hst2)
    as (i2 & s2 & Hu2 & _ & Hb2 & _).
  exists i1, i2, (idgen w1), (idgen w2). subst b1 b2.
  cbn [dict_get String.eqb Ascii.eqb Bool.eqb].
  repeat split; try assumption; intros Hne Heq; apply Hne; congruence.
Qed.



(** C8.  [query] leaves the store as it was and makes no call to
    [collection.add]; apart from its two collaborator calls, each of its
    effects is the print of the question, of the retrieval result, or of
    the context. *)
Theorem query_only_logs
        (q : string) (w : W) :
  store (snd (query env q w)) = store w
  /\ trace (snd (query env q w)) = (trace w ++ query_effects env q w)%list
  /\ add_calls (query_effects env q w) = []
  /\ (forall ev,
         In ev (query_effects env q w) ->
         ev = CollectionQuery [q] 1
         \/ (exists c, ev = OllamaGenerate "tinyllama" (prompt_of c q))
         \/ ev = Print ("Received query: " ++ q)
         \/ (exists r,
                collection_query env [q] 1 (store w) = Returned r
                /\ (ev = Print ("ChromaDB query results: "
                                ++ format_results env r)
                    \/ exists c,
                        context_of r = Returned c
                        /\ ev = Print ("Context passed to Ollama: " ++ c)))).
Proof.
  destruct (query_frame env q w) as (Htrace & Hstore & _).
  split; [exact Hstore|]. split; [exact Htrace|].
  unfold query_effects.
  destruct (collection_query env [q] 1 (store w)) as [r|e|b] eqn:Hq;
    [destruct (context_of r) as [c|e|b] eqn:Hc| |];
    (split; [reflexivity|]); cbn [In]; intros ev Hin;
    repeat match goal with
           | H : _ \/ _ |- _ => destruct H as [H|H]
           | H : False |- _ => destruct H
           end; subst ev; eauto 10.
Qed.

(** C9, at the failing case.  When the similarity search returns a result
    whose row of documents is empty, [query] raises [IndexError] and makes
    no generation call. *)
Theorem query_empty_row_skips_generation
        (q : string) (w : W) (r : QueryResult) (rest : list (list string)) :
  collection_query env [q] 1 (store w) = Returned r ->
  documents r = Some ([] :: rest) ->
  fst (query env q w) = Raised IndexError
  /\ generate_calls (trace (snd (query env q w))) = generate_calls (trace w).
Proof.
  intros Hq Hdocs.
  rewrite (query_context_raises env q w r IndexError Hq
             (context_of_empty_row r rest Hdocs)).
  cbn [fst snd trace]. split; [reflexivity|].
  rewrite generate_calls_app. cbn. apply app_nil_r.
Qed.


End Properties.

(** ** The properties on concrete worlds *)

Import Examples.

(** C1, at the failing input.  On a collection that holds nothing, the
    similarity search returns one empty row of documents; [query] then raises
    [IndexError] after its second print, and makes no generation call. *)
Theorem query_on_empty_collection_raises :
  collection_query Mem.env [sky_question] 1 (store empty_world)
  = Returned (mkQueryResult [[]] (Some [[]]))
  /\ query Mem.env sky_question empty_world
     = (Raised IndexError,
        mkWorld (store empty_world) (idgen empty_world) (llm empty_world)
                [Print "Received query: What color is the sky?";
                 CollectionQuery [sky_question] 1;
                 Print "ChromaDB query results: {'ids': [[]], 'documents': [[]]}"])
  /\ generate_calls (trace (snd (query Mem.env sky_question empty_world))) = [].
Proof.
  repeat split.
Qed.


Lemma add_knowledge_fault_gives_error_envelope_witness :
  collection_add Mem.env [sky_text] ["id-1"] (store offline_world)
  = (Raised Mem.unavailable, store offline_world)
  /\ fst (add_knowledge Mem.env sky_text offline_world)
     = Returned [("status", "error"); ("message", "collaborator unavailable")].
Proof.
  split; [reflexivity|].
  refine (proj1 (add_knowledge_fault_gives_error_envelope
                   Mem.env sky_text offline_world Mem.unavailable _)).
  right. exists "id-1", ["id-2"], (store offline_world). split; reflexivity.
Defined.

Lemma add_knowledge_success_envelope_witness :
  uuid4_str Mem.env (idgen grass_world) = (Returned "id-1", ["id-2"])
  /\ fst (add_knowledge Mem.env sky_text grass_world)
     = Returned [("status", "success");
                 ("message", "Content added to knowledge base");
                 ("id", "id-1")]
  /\ store (snd (add_knowledge Mem.env sky_text grass_world)) = store sky_world
  /\ idgen (snd (add_knowledge Mem.env sky_text grass_world)) = ["id-2"]
  /\ returned_id_is_fresh Mem.env sky_text grass_world.
Proof.
  split; [reflexivity|].
  destruct (add_knowledge_success_envelope
              Mem.env sky_text grass_world "id-1" ["id-2"] (store sky_world)
              eq_refl eq_refl) as (Hbody & _ & _ & Hstore & Hgen & _ & Hfresh).
  split; [exact Hbody|]. split; [exact Hstore|]. split; [exact Hgen|].
  apply (proj2 Hfresh). intros [].
Defined.

(** C4, as stated, fails: when the generator repeats a draw, the second
    call of [add_knowledge] succeeds with an identifier that the first call
    already inserted. *)
Lemma returned_id_can_be_stale :
  ~ returned_id_is_fresh Mem.env sky_text
      (snd (add_knowledge Mem.env sky_text repeating_world)).
Proof.
  intros Hfresh.
  apply (Hfresh _ _ "id-1" eq_refl eq_refl eq_refl).
  left. reflexivity.
Qed.

(** C3, as stated, fails: [collection.add] ending in [KeyboardInterrupt]
    is a fault of the insertion step, and [add_knowledge] returns no
    envelope: the interrupt leaves it. *)
Lemma interrupt_is_not_reported :
  ~ every_fault_is_reported Interrupted.env sky_text Interrupted.world.
Proof.
  intros Hreported.
  assert (Hstep : add_step_fault Interrupted.env sky_text Interrupted.world
                                 Interrupted.keyboard_interrupt).
  { right. exists "id-1", []. split; reflexivity. }
  specialize (Hreported _ Hstep). discriminate Hreported.
Qed.

(** C5, as stated, fails: when the generator draws the same value twice, two
    consecutive calls of [add_knowledge] with the same text both report
    success and return the same identifier. *)
Lemma consecutive_ids_can_repeat :
  ~ consecutive_ids_distinct Mem.env sky_text sky_text repeating_world.
Proof.
  intros Hdistinct.
  apply (Hdistinct _ _ _ _ "id-1" "id-1" eq_refl eq_refl
                   eq_refl eq_refl eq_refl eq_refl).
  reflexivity.
Qed.

Lemma consecutive_ids_are_the_draws_witness :
  exists i1 i2 g1 g2,
    uuid4_str Mem.env (idgen empty_world) = (Returned i1, g1)
    /\ uuid4_str Mem.env g1 = (Returned i2, g2)
    /\ i1 = "id-1" /\ i2 = "id-2".
Proof.
  destruct (consecutive_ids_are_the_draws
              Mem.env sky_text sky_text empty_world _ _ _ _
              eq_refl eq_refl eq_refl eq_refl)
    as (i1 & i2 & g1 & g2 & Hu1 & Hu2 & Hi1 & Hi2 & _).
  exists i1, i2, g1, g2.
  repeat split; try assumption.
  - cbn in Hi1. congruence.
  - cbn in Hi2. congruence.
Defined.



Lemma query_only_logs_witness :
  store (snd (query Mem.env sky_question sky_world)) = store sky_world
  /\ add_calls (query_effects Mem.env sky_question sky_world) = [].
Proof.
  destruct (query_only_logs Mem.env sky_question sky_world)
    as (Hstore & _ & Hadd & _).
  split; [exact Hstore | exact Hadd].
Defined.

Lemma query_empty_row_skips_generation_witness :
  documents (mkQueryResult [[]] (Some [[]])) = Some [[]]
  /\ fst (query Mem.env "Is grass green?" empty_world) = Raised IndexError
  /\ generate_calls (trace (snd (query Mem.env "Is grass green?" empty_world)))
     = [].
Proof.
  split; [reflexivity|].
  exact (query_empty_row_skips_generation
           Mem.env "Is grass green?" empty_world
           (mkQueryResult [[]] (Some [[]])) [] eq_refl eq_refl).
Defined.


(** ** Further properties of the handlers *)

Section Outcomes.

Context {Store IdGen Llm : Type}.
Variable env : Collaborators Store IdGen Llm.

Let W : Type := World Store IdGen Llm.

(** X1.  When the similarity search, the indexing and the generation call
    all return, [query] returns the dict whose only key is ["answer"] and
    whose value is the [response] field of the generation result; the model
    server is left in the state that call produced. *)
Theorem query_answer_is_response
        (q : string) (w : W) (r : QueryResult) (c : string)
        (a : GenerateResponse) (l' : Llm) :
  collection_query env [q] 1 (store w) = Returned r ->
  context_of r = Returned c ->
  ollama_generate env "tinyllama" (prompt_of c q) (llm w) = (Returned a, l') ->
  fst (query env q w) = Returned [("answer", response a)]
  /\ llm (snd (query env q w)) = l'
  /\ generate_calls (trace (snd (query env q w)))
     = (generate_calls (trace w)
        ++ [OllamaGenerate "tinyllama" (prompt_of c q)])%list.
Proof.
  intros Hq Hc Hg.
  rewrite (query_context_returned env q w r c Hq Hc).
  unfold model_id. rewrite Hg. cbn [fst snd llm trace].
  repeat split. rewrite generate_calls_app. reflexivity.
Qed.




(** X6.  [add_knowledge] returns an envelope unless a step raised
    outside [Exception].  An envelope it returns has status ["success"] or
    ["error"]; it is ["success"] exactly when both the identifier generation
    and the insertion returned, and an error envelope carries no [id]. *)
Theorem add_knowledge_status_iff (text : string) (w : W) :
  ((forall b, ~ add_step_base_fault env text w b) ->
   exists body, fst (add_knowledge env text w) = Returned body)
  /\ (forall body,
         fst (add_knowledge env text w) = Returned body ->
         (dict_get "status" body = Some "success"
          \/ dict_get "status" body = Some "error")
         /\ (dict_get "status" body = Some "success"
             <-> exists i g' s',
                  uuid4_str env (idgen w) = (Returned i, g')
                  /\ collection_add env [text] [i] (store w) = (Returned tt, s'))
         /\ (dict_get "status" body = Some "error"
             -> dict_get "id" body = None)).
Proof.
  destruct (add_knowledge_cases env text w)
    as [(e & g' & Hu) | [(b & g' & Hu) | [(i & g' & s' & Hu & Ha)
       | [(i & g' & e & s' & Hu & Ha) | (i & g' & b & s' & Hu & Ha)]]]].
  - rewrite (add_knowledge_uuid_raises env text w e g' Hu). cbn [fst].
    split; [intros _; eexists; reflexivity|].
    intros body Hb. injection Hb as <-. cbn. repeat split.
    + now right.
    + discriminate.
    + intros (i' & g'' & s'' & Hu' & _). rewrite Hu in Hu'. discriminate.
  - split.
    + intros Hno. exfalso. apply (Hno b). left. now rewrite Hu.
    + rewrite (add_knowledge_uuid_raises_base env text w b g' Hu). discriminate.
  - rewrite (add_knowledge_add_returns env text w i g' s' Hu Ha). cbn [fst].
    split; [intros _; eexists; reflexivity|].
    intros body Hb. injection Hb as <-. cbn. repeat split.
    + now left.
    + intros _. now exists i, g', s'.
    + discriminate.
  - rewrite (add_knowledge_add_raises env text w i g' e s' Hu Ha). cbn [fst].
    split; [intros _; eexists; reflexivity|].
    intros body Hb. injection Hb as <-. cbn. repeat split.
    + now right.
    + discriminate.
    + intros (i' & g'' & s'' & Hu' & Ha'). rewrite Hu in Hu'.
      injection Hu' as <- <-. rewrite Ha in Ha'. discriminate.
  - split.
    + intros Hno. exfalso. apply (Hno b). right. exists i, g'.
      split; [exact Hu | now rewrite Ha].
    + rewrite (add_knowledge_add_raises_base env text w i g' b s' Hu Ha).
      discriminate.
Qed.

(** X7.  When the insertion raises, [add_knowledge] has made that one call
    to [collection.add] and makes no second one; it keeps the store as the
    failed call left it and the identifier it drew is spent.  An instance of
    [Exception] comes back as the envelope with its text and no [id];
    anything else leaves the handler as it was raised. *)
Theorem add_knowledge_insert_fault_no_retry
        (text : string) (w : W) (i : string) (g' : IdGen)
        (r : outcome unit) (s' : Store) :
  uuid4_str env (idgen w) = (Returned i, g') ->
  collection_add env [text] [i] (store w) = (r, s') ->
  r <> Returned tt ->
  add_calls (trace (snd (add_knowledge env text w)))
  = (add_calls (trace w) ++ [CollectionAdd [text] [i]])%list
  /\ store (snd (add_knowledge env text w)) = s'
  /\ idgen (snd (add_knowledge env text w)) = g'
  /\ match r with
     | Returned _ => False
     | Raised e =>
         exists body,
           fst (add_knowledge env text w) = Returned body
           /\ dict_get "status" body = Some "error"
           /\ dict_get "message" body = Some (exc_str e)
           /\ dict_get "id" body = None
     | RaisedBase b => fst (add_knowledge env text w) = RaisedBase b
     end.
Proof.
  intros Hu Ha Hfault. destruct r as [[]|e|b].
  - now destruct Hfault.
  - rewrite (add_knowledge_add_raises env text w i g' e s' Hu Ha).
    cbn [fst snd trace store idgen]. repeat split.
    + rewrite add_calls_app. reflexivity.
    + eexists. repeat split.
  - rewrite (add_knowledge_add_raises_base env text w i g' b s' Hu Ha).
    cbn [fst snd trace store idgen]. repeat split.
    rewrite add_calls_app. reflexivity.
Qed.

(** X8.  [add_knowledge] never prints, never searches and never calls the
    model server: its effects are one identifier draw followed by at most
    one [collection.add], of the single document [text] under the identifier
    drawn; the model server's state is untouched. *)
Theorem add_knowledge_frame (text : string) (w : W) :
  llm (snd (add_knowledge env text w)) = llm w
  /\ (trace (snd (add_knowledge env text w)) = (trace w ++ [Uuid4])%list
      \/ exists i g',
          uuid4_str env (idgen w) = (Returned i, g')
          /\ trace (snd (add_knowledge env text w))
             = (trace w ++ [Uuid4; CollectionAdd [text] [i]])%list).
Proof.
  destruct (add_knowledge_cases env text w)
    as [(e & g' & Hu) | [(b & g' & Hu) | [(i & g' & s' & Hu & Ha)
       | [(i & g' & e & s' & Hu & Ha) | (i & g' & b & s' & Hu & Ha)]]]].
  - rewrite (add_knowledge_uuid_raises env text w e g' Hu).
    cbn [snd llm trace]. split; [reflexivity|]. now left.
  - rewrite (add_knowledge_uuid_raises_base env text w b g' Hu).
    cbn [snd llm trace]. split; [reflexivity|]. now left.
  - rewrite (add_knowledge_add_returns env text w i g' s' Hu Ha).
    cbn [snd llm trace]. split; [reflexivity|]. right. now exists i, g'.
  - rewrite (add_knowledge_add_raises env text w i g' e s' Hu Ha).
    cbn [snd llm trace]. split; [reflexivity|]. right. now exists i, g'.
  - rewrite (add_knowledge_add_raises_base env text w i g' b s' Hu Ha).
    cbn [snd llm trace]. split; [reflexivity|]. right. now exists i, g'.
Qed.

(** X11.  Two consecutive successful calls of [add_knowledge] make two
    insertions, also when both carry the same text: the handler does not look
    a text up before inserting it.  The second insertion acts on the store
    the first one left. *)
Theorem add_knowledge_twice_inserts_twice
        (t1 t2 i1 i2 : string) (w : W) (g1 g2 : IdGen) (s1 s2 : Store) :
  uuid4_str env (idgen w) = (Returned i1, g1) ->
  collection_add env [t1] [i1] (store w) = (Returned tt, s1) ->
  uuid4_str env g1 = (Returned i2, g2) ->
  collection_add env [t2] [i2] s1 = (Returned tt, s2) ->
  add_calls (trace (snd (add_knowledge env t2 (snd (add_knowledge env t1 w)))))
  = (add_calls (trace w)
     ++ [CollectionAdd [t1] [i1]; CollectionAdd [t2] [i2]])%list
  /\ store (snd (add_knowledge env t2 (snd (add_knowledge env t1 w)))) = s2.
Proof.
  intros Hu1 Ha1 Hu2 Ha2.
  rewrite (add_knowledge_add_returns env t1 w i1 g1 s1 Hu1 Ha1). cbn [snd].
  rewrite (add_knowledge_add_returns
             env t2
             (mkWorld s1 g1 (llm w) (trace w ++ [Uuid4; CollectionAdd [t1] [i1]])%list)
             i2 g2 s2 Hu2 Ha2).
  cbn [snd trace store]. split; [|reflexivity].
  rewrite !add_calls_app. cbn. rewrite <- app_assoc. reflexivity.
Qed.

End Outcomes.

(** X4.  Indexing the retrieval result raises only [IndexError], and only
    when the first row of documents is empty: the conditional keeps
    [None[0]] and [[][0]] on the outer list from being evaluated. *)
Theorem context_of_raises_iff (r : QueryResult) (e : PyException) :
  context_of r = Raised e
  <-> e = IndexError /\ exists rest, documents r = Some ([] :: rest).
Proof.
  split.
  - intros Hr.
    destruct (context_of_cases r)
      as [(d & ds & rest & _ & Hc) | [(_ & Hc) | (rest & Hdocs & Hc)]];
      rewrite Hc in Hr; try discriminate.
    injection Hr as <-. split; [reflexivity | now exists rest].
  - intros (-> & rest & Hdocs). now apply context_of_empty_row with rest.
Qed.

(** X9.  The prompt template does not delimit its two fields: text that
    follows the separator ["\n\nQuestion: "] inside the context reads as the
    start of the question, so different (context, question) pairs give the
    same prompt. *)
Theorem prompt_of_fields_not_delimited (a b c : string) :
  prompt_of (a ++ nl ++ nl ++ "Question: " ++ b) c
  = prompt_of a (b ++ nl ++ nl ++ "Question: " ++ c).
Proof.
  unfold prompt_of. repeat rewrite string_app_assoc. reflexivity.
Qed.

(** ** The further properties on concrete worlds *)

Lemma query_answer_is_response_witness :
  ollama_generate Mem.env "tinyllama" (prompt_of sky_text sky_question)
                  (llm sky_world)
  = (Returned (mkGenerateResponse "Blue."), Some "Blue.")
  /\ fst (query Mem.env sky_question sky_world) = Returned [("answer", "Blue.")].
Proof.
  split; [reflexivity|].
  exact (proj1 (query_answer_is_response
                  Mem.env sky_question sky_world
                  (mkQueryResult [["id-1"]] (Some [[sky_text]])) sky_text
                  (mkGenerateResponse "Blue.") (Some "Blue.")
                  eq_refl eq_refl eq_refl)).
Defined.



Lemma context_of_raises_iff_witness :
  context_of (mkQueryResult [[]] (Some [[]; ["Grass is green."]]))
  = Raised IndexError.
Proof.
  apply (proj2 (context_of_raises_iff
                  (mkQueryResult [[]] (Some [[]; ["Grass is green."]]))
                  IndexError)).
  split; [reflexivity|]. now exists [["Grass is green."]].
Defined.


Lemma add_knowledge_status_iff_witness :
  (forall b, ~ add_step_base_fault Mem.env sky_text grass_world b)
  /\ exists body,
       fst (add_knowledge Mem.env sky_text grass_world) = Returned body
       /\ dict_get "status" body = Some "success".
Proof.
  assert (Hno : forall b, ~ add_step_base_fault Mem.env sky_text grass_world b).
  { intros b [H | (i & g' & Hu & Ha)]; [discriminate H|].
    injection Hu as <- <-. discriminate Ha. }
  split; [exact Hno|].
  destruct (add_knowledge_status_iff Mem.env sky_text grass_world)
    as [Hret Hshape].
  destruct (Hret Hno) as [body Hbody].
  exists body. split; [exact Hbody|].
  destruct (Hshape body Hbody) as (_ & Hiff & _).
  apply (proj2 Hiff).
  exists "id-1", ["id-2"], (store sky_world). split; reflexivity.
Defined.

Lemma add_knowledge_insert_fault_no_retry_witness :
  collection_add Mem.env [sky_text] ["id-1"] (store offline_world)
  = (Raised Mem.unavailable, store offline_world)
  /\ add_calls (trace (snd (add_knowledge Mem.env sky_text offline_world)))
     = [CollectionAdd [sky_text] ["id-1"]]
  /\ idgen (snd (add_knowledge Mem.env sky_text offline_world)) = ["id-2"]
  /\ fst (add_knowledge Interrupted.env sky_text Interrupted.world)
     = RaisedBase Interrupted.keyboard_interrupt.
Proof.
  split; [reflexivity|].
  destruct (add_knowledge_insert_fault_no_retry
              Mem.env sky_text offline_world "id-1" ["id-2"]
              (Raised Mem.unavailable) (store offline_world)
              eq_refl eq_refl ltac:(discriminate))
    as (Hcalls & _ & Hgen & _).
  split; [exact Hcalls|]. split; [exact Hgen|].
  destruct (add_knowledge_insert_fault_no_retry
              Interrupted.env sky_text Interrupted.world "id-1" []
              (RaisedBase Interrupted.keyboard_interrupt)
              (store Interrupted.world)
              eq_refl eq_refl ltac:(discriminate))
    as (_ & _ & _ & Hout).
  exact Hout.
Defined.

Lemma add_knowledge_twice_inserts_twice_witness :
  add_calls
    (trace (snd (add_knowledge Mem.env sky_text
                   (snd (add_knowledge Mem.env sky_text empty_world)))))
  = [CollectionAdd [sky_text] ["id-1"]; CollectionAdd [sky_text] ["id-2"]]
  /\ store (snd (add_knowledge Mem.env sky_text
                   (snd (add_knowledge Mem.env sky_text empty_world))))
     = Mem.mkStore true [("id-1", sky_text); ("id-2", sky_text)].
Proof.
  exact (add_knowledge_twice_inserts_twice
           Mem.env sky_text sky_text "id-1" "id-2" empty_world ["id-2"] []
           (Mem.mkStore true [("id-1", sky_text)])
           (Mem.mkStore true [("id-1", sky_text); ("id-2", sky_text)])
           eq_refl eq_refl eq_refl eq_refl).
Defined.
